(** * timer.py: a stopwatch as a context manager

    A shallow embedding of the class [Timer] of [timer.py] and the
    properties of its methods.

    - Python floats are IEEE binary64 numbers: Rocq's primitive [float].
    - An instance is its attribute dictionary ([gmap string value]); the
      instances live in a heap indexed by address, so that "the same
      instance" is a statement about addresses.
    - A time source is a zero-argument callable with hidden state of its
      own: a function from the state of the outside world to a reading and
      the next state of the world.
    - A method is a computation in a state-and-exception monad.  A raised
      exception does not roll the state back.
    - What client code does with an instance over time is a history: a
      list of calls, run one after the other. *)

From Stdlib Require Import Floats ZArith Lia.
From stdpp Require Import base gmap strings.

Local Open Scope string_scope.

(** ** Exceptions and results *)

Inductive exn :=
  | AttributeError (name : string)  (* 'Timer' object has no attribute name *)
  | TypeError                       (* unsupported operand, or not callable *)
  | Exception (msg : string).       (* anything the timed block raises *)

Inductive result (A : Type) :=
  | Ok (a : A)
  | Raise (e : exn).
Arguments Ok {A} a.
Arguments Raise {A} e.

(** Addresses of instances. *)
Definition loc := nat.

(** The names the body of [class Timer] binds. *)
Inductive method :=
  | m__init__ | m__call__ | m__enter__ | m__exit__ | m_elapsed | m_elapsed_ms.

Definition Timer_namespace : gmap string method :=
  list_to_map
    [ ("__init__", m__init__); ("__call__", m__call__);
      ("__enter__", m__enter__); ("__exit__", m__exit__);
      ("elapsed", m_elapsed); ("elapsed_ms", m_elapsed_ms) ].

Section Timer.

(** The state of everything outside the heap (the clocks). *)
Context {W : Type}.

(** A zero-argument callable returning a float. *)
Definition callable := W -> float * W.

(** [timeit.default_timer]. *)
Variable default_timer : callable.

(** What an instance attribute can hold. *)
Inductive value :=
  | VNone
  | VFloat (x : float)
  | VCallable (f : callable).

(** What [obj.name] evaluates to: the value stored in the instance, or a
    method of the class bound to the instance. *)
Inductive attr :=
  | Data (v : value)
  | Bound (m : method) (self : loc).

Record state := State {
  heap : gmap loc (gmap string value);
  world : W
}.

(** ** The monad *)

Definition M (A : Type) : Type := state -> result A * state.

#[global] Instance M_ret : MRet M := λ A a s, (Ok a, s).

#[global] Instance M_bind : MBind M := λ A B f m s,
  match m s with
  | (Ok a, s') => f a s'
  | (Raise e, s') => (Raise e, s')
  end.

Definition raise {A} (e : exn) : M A := λ s, (Raise e, s).

(** ** Attribute access

    A dictionary of the instance [self]; an address that was never
    allocated has no attributes. *)
Definition instance_dict (s : state) (self : loc) : gmap string value :=
  heap s !!! self.

(** [self.name]: the instance dictionary first, then the class (functions
    are non-data descriptors, so an instance attribute shadows a method of
    the same name), else [AttributeError]. *)
Definition getattr (self : loc) (name : string) : M attr := λ s,
  match instance_dict s self !! name with
  | Some v => (Ok (Data v), s)
  | None =>
      match Timer_namespace !! name with
      | Some m => (Ok (Bound m self), s)
      | None => (Raise (AttributeError name), s)
      end
  end.

(** [self.name = v]. *)
Definition setattr (self : loc) (name : string) (v : value) : M unit := λ s,
  (Ok (), State (<[self := <[name := v]> (instance_dict s self)]> (heap s)) (world s)).

(** ** Operators *)

(** [a()].  Inside the class body only [self.timer] is called, and [timer]
    is not a name of the class, so the callee is never a bound method there
    (lemma [getattr_timer]); that case is given the result of a call with
    the wrong number of arguments. *)
Definition call (a : attr) : M value :=
  match a with
  | Data (VCallable f) => λ s,
      (Ok (VFloat (f (world s)).1), State (heap s) (f (world s)).2)
  | Data VNone | Data (VFloat _) => raise TypeError
  | Bound _ _ => raise TypeError
  end.

(** [a is None]. *)
Definition is_None (a : attr) : bool :=
  match a with
  | Data VNone => true
  | _ => false
  end.

(** [a - b], defined between floats only. *)
Definition py_sub (a b : attr) : M value :=
  match a, b with
  | Data (VFloat x), Data (VFloat y) => mret (VFloat (x - y)%float)
  | _, _ => raise TypeError
  end.

(** [a * b], defined between floats only.  The literal [1000] is an [int];
    [float.__mul__] converts it to the float [1000.0]. *)
Definition py_mul (a b : attr) : M value :=
  match a, b with
  | Data (VFloat x), Data (VFloat y) => mret (VFloat (x * y)%float)
  | _, _ => raise TypeError
  end.

Definition int_1000 : attr := Data (VFloat 1000%float).

(** [bool(v)]. *)
Definition truthy (v : value) : bool :=
  match v with
  | VNone => false
  | VFloat x => negb (x =? 0)%float
  | VCallable _ => true
  end.

(** ** The methods of [Timer] *)

(** [def __init__(self, timer=default_timer): self.timer = default_timer] *)
Definition __init__ (self : loc) (timer : value) : M value :=
  setattr self "timer" (VCallable default_timer);;
  mret VNone.

(** [def __call__(self): return self.timer()] *)
Definition __call__ (self : loc) : M value :=
  t ← getattr self "timer";
  call t.

(** [def __enter__(self):
       self.start = self.timer(); self.end = None; return self] *)
Definition __enter__ (self : loc) : M loc :=
  t ← getattr self "timer";
  r ← call t;
  setattr self "start" r;;
  setattr self "end" VNone;;
  mret self.

(** [def __exit__(self, exc_type, exc_value, exc_traceback):
       self.end = self.timer()
       self.elapsed_s = self.end - self.start
       self.elapsed_ms = self.elapsed_s * 1000]
    The three arguments are [None] when the block ended normally and
    describe the exception otherwise. *)
Definition __exit__ (self : loc) (exc_type exc_value exc_traceback : option exn)
  : M value :=
  t ← getattr self "timer";
  r ← call t;
  setattr self "end" r;;
  e ← getattr self "end";
  b ← getattr self "start";
  d ← py_sub e b;
  setattr self "elapsed_s" d;;
  es ← getattr self "elapsed_s";
  ms ← py_mul es int_1000;
  setattr self "elapsed_ms" ms;;
  mret VNone.

(** [def elapsed(self):
       if self.end is None: return self.timer() - self.start
       else: return self.end - self.start] *)
Definition elapsed (self : loc) : M value :=
  e ← getattr self "end";
  if is_None e then
    t ← getattr self "timer";
    r ← call t;
    b ← getattr self "start";
    py_sub (Data r) b
  else
    e ← getattr self "end";
    b ← getattr self "start";
    py_sub e b.

(** [def elapsed_ms(self):
       if self.end is None: return (self.timer() - self.start) * 1000
       else: return (self.end - self.start) * 1000] *)
Definition elapsed_ms (self : loc) : M value :=
  e ← getattr self "end";
  if is_None e then
    t ← getattr self "timer";
    r ← call t;
    b ← getattr self "start";
    d ← py_sub (Data r) b;
    py_mul (Data d) int_1000
  else
    e ← getattr self "end";
    b ← getattr self "start";
    d ← py_sub e b;
    py_mul (Data d) int_1000.

(** ** Instantiation and the [with] statement *)

(** [Timer()] and [Timer(t)]: a new instance at an unused address, then
    [__init__] with the argument, the default of the parameter when none is
    given. *)
Definition Timer (arg : option value) : M loc := λ s,
  let self := fresh (dom (heap s)) in
  let timer := default (VCallable default_timer) arg in
  (__init__ self timer;; mret self) (State (<[self := ∅]> (heap s)) (world s)).

(** [with mgr as v: body].  The exit method is called with [None]s when
    the body ends normally; when the body raises, it is called with the
    exception, which is raised again unless the call returns a true
    value. *)
Definition with_ (mgr : loc) (body : loc -> M unit) : M unit := λ s,
  match __enter__ mgr s with
  | (Raise e, s1) => (Raise e, s1)
  | (Ok v, s1) =>
      match body v s1 with
      | (Ok _, s2) => (__exit__ mgr None None None;; mret ()) s2
      | (Raise e, s2) =>
          match __exit__ mgr (Some e) (Some e) (Some e) s2 with
          | (Ok r, s3) => if truthy r then (Ok (), s3) else (Raise e, s3)
          | (Raise e', s3) => (Raise e', s3)
          end
      end
  end.

(** ** Invariants of computations *)

(** [v] is a float. *)
Definition is_float (v : value) : Prop := ∃ x, v = VFloat x.

(** Running [m] from a state in [I] ends in [I], whatever the outcome, and
    a returned value satisfies [Q]. *)
Definition triple {A} (I : state -> Prop) (m : M A) (Q : A -> Prop) : Prop :=
  ∀ s, I s ->
    I (m s).2
    ∧ match (m s).1 with
      | Ok a => Q a
      | Raise _ => True
      end.

(** The assignment [self.name = v] keeps [I]. *)
Definition writable (I : state -> Prop) (self : loc) (name : string) (v : value)
  : Prop :=
  ∀ s, I s -> I (setattr self name v s).2.

(** [I] does not look at the clocks. *)
Definition timeless (I : state -> Prop) : Prop :=
  ∀ h w w', I (State h w) -> I (State h w').

(** An invariant on one attribute of one instance. *)
Definition attr_inv (l : loc) (n : string) (P : option value -> Prop)
  : state -> Prop :=
  λ s, P (instance_dict s l !! n).

(** ** Histories of an instance

    What client code does with an instance after it was made: the calls
    [t()], [t.__enter__()], [t.__exit__(..)], [Timer.elapsed(t)] and
    [Timer.elapsed_ms(t)], whose results and exceptions it may drop, and
    anything else that lets the clocks advance. *)
Inductive op :=
  | op_call
  | op_enter
  | op_exit (exc_type exc_value exc_traceback : option exn)
  | op_elapsed
  | op_elapsed_ms
  | op_wait (f : W -> W).

Definition run_op (self : loc) (s : state) (o : op) : state :=
  match o with
  | op_call => (__call__ self s).2
  | op_enter => (__enter__ self s).2
  | op_exit x y z => (__exit__ self x y z s).2
  | op_elapsed => (elapsed self s).2
  | op_elapsed_ms => (elapsed_ms self s).2
  | op_wait f => State (heap s) (f (world s))
  end.

Definition run_ops (self : loc) (os : list op) (s : state) : state :=
  foldl (run_op self) s os.

Definition is_enter (o : op) : bool :=
  match o with
  | op_enter => true
  | _ => false
  end.

Definition is_exit (o : op) : bool :=
  match o with
  | op_exit _ _ _ => true
  | _ => false
  end.

(** ** The shape of an instance *)

(** The attributes that the methods other than [__init__] assign. *)
Definition assigned : gset string :=
  {["start"; "end"; "elapsed_s"; "elapsed_ms"]}.

(** The shapes the methods leave an instance in.  Never entered: no
    [start], no cached value, and [end] unset or the reading of a failed
    [__exit__].  Inside a scope: [end] is [None], and the cached values,
    if any, are those of an earlier scope.  After a scope: the cached
    values are those of [start] and [end]. *)
Definition consistent (d : gmap string value) : Prop :=
  (∃ t, d !! "timer" = Some (VCallable t))
  ∧ match d !! "start", d !! "end" with
    | None, None | None, Some (VFloat _) =>
        d !! "elapsed_s" = None ∧ d !! "elapsed_ms" = None
    | Some (VFloat _), Some VNone =>
        (d !! "elapsed_s" = None ∧ d !! "elapsed_ms" = None)
        ∨ (∃ x, d !! "elapsed_s" = Some (VFloat x)
                ∧ d !! "elapsed_ms" = Some (VFloat (x * 1000)))
    | Some (VFloat a), Some (VFloat b) =>
        d !! "elapsed_s" = Some (VFloat (b - a))
        ∧ d !! "elapsed_ms" = Some (VFloat ((b - a) * 1000))
    | _, _ => False
    end.

(** A block that touches no instance: only the clocks move. *)
Definition idle (f : W -> W) : loc -> M unit :=
  λ _ s, (Ok (), State (heap s) (f (world s))).

End Timer.

Arguments VNone {W}.
Arguments VFloat {W} x.

(** ** Predicates on floats, on their specification [spec_float] *)

(** A zero, or a finite number or an infinity of sign [s]; not a NaN. *)
Definition has_sign (s : bool) (x : spec_float) : bool :=
  match x with
  | S754_zero _ => true
  | S754_infinity s' | S754_finite s' _ _ => Bool.eqb s s'
  | S754_nan => false
  end.

(** Neither an infinity nor a NaN. *)
Definition SFis_finite (x : spec_float) : bool :=
  match x with
  | S754_zero _ | S754_finite _ _ _ => true
  | S754_infinity _ | S754_nan => false
  end.

(** The signed mantissa of a finite float, at a smaller exponent [ez]. *)
Definition aligned (s : bool) (m : positive) (e ez : Z) : Z :=
  cond_Zopp s (Zpos (shl_align m e ez).1).

(** ** A concrete world: two scripted clocks

    The world counts how often each clock was read.  The platform clock
    gives the readings of the module docstring, the stub those of the
    test scenario; past the end of its script a clock repeats its last
    reading. *)
Module Demo.

Record clocks := Clocks { default_reads : nat; stub_reads : nat }.

Definition default_timer : @callable clocks := λ w,
  (nth (default_reads w) [1341568310.0; 1341568310.125]%float 1341568310.125%float,
   Clocks (S (default_reads w)) (stub_reads w)).

Definition stub : @callable clocks := λ w,
  (nth (stub_reads w) [100.0; 100.5]%float 100.5%float,
   Clocks (default_reads w) (S (stub_reads w))).

(** No instance yet, no clock read yet. *)
Definition boot : @state clocks := State ∅ (Clocks 0 0).

(** [t = Timer(stub)], at address [self]. *)
Definition self : loc := 0.
Definition created : @state clocks :=
  (Timer default_timer (Some (VCallable stub)) boot).2.

(** [t.__enter__()] and then [t.__exit__(None, None, None)]. *)
Definition entered : @state clocks := (__enter__ self created).2.
Definition exited : @state clocks := (__exit__ self None None None entered).2.

(** The same after [t.timer = stub]. *)
Definition rebound : @state clocks :=
  (setattr self "timer" (VCallable stub) created).2.
Definition rebound_entered : @state clocks := (__enter__ self rebound).2.
Definition rebound_exited : @state clocks :=
  (__exit__ self None None None rebound_entered).2.

(** A block that raises at once. *)
Definition failing_block : loc -> @M clocks unit :=
  λ _, raise (Exception "boom").

End Demo.

(** ** A second concrete world: one clock with a longer script

    The world is the number of readings taken so far. *)
Module Ticks.

Definition clock : @callable nat := λ n,
  (nth n [10.0; 11.5; 13.0; 17.0; 20.0]%float 20.0%float, S n).

(** [a = Timer()] at address [0], entered once. *)
Definition first : loc := 0.
Definition one_running : @state nat :=
  run_ops first [op_enter] (Timer clock None (State ∅ 0)).2.

(** Then [b = Timer()], at address [1]. *)
Definition second : loc := 1.
Definition two_made : @state nat := (Timer clock None one_running).2.

(** A scope of [b], and what [a] holds meanwhile. *)
Definition scope : list (@op nat) := [op_enter; op_exit None None None].
Definition first_dict : gmap string (@value nat) :=
  {["timer" := VCallable clock; "start" := VFloat 10.0; "end" := VNone]}.

End Ticks.

(** * Floats: the sign of a rounded difference *)

Section Rounding.

Variables prec emax : Z.

(** Shifting right keeps a mantissa non-negative. *)
Lemma shr_1_nonneg mrs : (0 <= shr_m mrs)%Z -> (0 <= shr_m (shr_1 mrs))%Z.
Proof.
  destruct mrs as [m r s]. cbn.
  destruct m as [ | [p | p | ] | [p | p | ] ]; cbn; lia.
Qed.

Lemma iter_pos_invariant {A} (P : A -> Prop) (f : A -> A) :
  (forall x, P x -> P (f x)) -> forall n x, P x -> P (SpecFloat.iter_pos f n x).
Proof.
  intros Hf n. induction n as [n IH | n IH | ]; intros x Hx; cbn; auto.
Qed.

Lemma shr_nonneg mrs e n : (0 <= shr_m mrs)%Z -> (0 <= shr_m (shr mrs e n).1)%Z.
Proof.
  intros H. destruct n as [ | p | p]; cbn; trivial.
  now apply (iter_pos_invariant (fun x => (0 <= shr_m x)%Z)), H; apply shr_1_nonneg.
Qed.

Lemma shr_record_of_loc_m m l : shr_m (shr_record_of_loc m l) = m.
Proof. now destruct l as [ | [ | | ] ]. Qed.

Lemma shr_fexp_nonneg m e l :
  (0 <= m)%Z -> (0 <= shr_m (shr_fexp prec emax m e l).1)%Z.
Proof.
  intros H. unfold shr_fexp. apply shr_nonneg. now rewrite shr_record_of_loc_m.
Qed.

Lemma round_nearest_even_nonneg m l :
  (0 <= m)%Z -> (0 <= round_nearest_even m l)%Z.
Proof.
  intros H. destruct l as [ | [ | | ] ]; cbn; try lia.
  destruct (Z.even m); lia.
Qed.

Lemma binary_round_aux_sign s m e l :
  (0 <= m)%Z -> has_sign s (binary_round_aux prec emax s m e l) = true.
Proof.
  intros H. unfold binary_round_aux.
  pose proof (shr_fexp_nonneg m e l H) as H1.
  destruct (shr_fexp prec emax m e l) as [mrs' e']. cbn in H1.
  pose proof (shr_fexp_nonneg _ e' loc_Exact
                (round_nearest_even_nonneg _ (loc_of_shr_record mrs') H1)) as H2.
  destruct (shr_fexp prec emax _ e' loc_Exact) as [mrs'' e'']. cbn in H2.
  destruct (shr_m mrs'') as [ | p | p]; [ | | lia]; cbn.
  - reflexivity.
  - destruct (e'' <=? emax - prec)%Z; cbn; apply Bool.eqb_reflx.
Qed.

Lemma binary_normalize_sign m e :
  (0 <= m)%Z -> has_sign false (binary_normalize prec emax m e false) = true.
Proof.
  intros H. destruct m as [ | p | p]; [reflexivity | | lia].
  cbn. unfold binary_round.
  destruct (shl_align p e _) as [mz ez]. now apply binary_round_aux_sign.
Qed.


(** ** Ordered floats have ordered aligned mantissas *)

Lemma digits2_pos_bounds m :
  (2 ^ (Zpos (digits2_pos m) - 1) <= Zpos m < 2 ^ Zpos (digits2_pos m))%Z.
Proof.
  induction m as [p IH | p IH | ]; cbn [digits2_pos].
  - rewrite Pos2Z.inj_succ, Z.pow_succ_r by lia.
    replace (Z.succ (Zpos (digits2_pos p)) - 1)%Z
      with (Z.succ (Zpos (digits2_pos p) - 1)) by lia.
    rewrite Z.pow_succ_r by lia. lia.
  - rewrite Pos2Z.inj_succ, Z.pow_succ_r by lia.
    replace (Z.succ (Zpos (digits2_pos p)) - 1)%Z
      with (Z.succ (Zpos (digits2_pos p) - 1)) by lia.
    rewrite Z.pow_succ_r by lia. lia.
  - cbn. lia.
Qed.

Lemma iter_xO_value m d : Zpos (Pos.iter xO m d) = (Zpos m * 2 ^ Zpos d)%Z.
Proof.
  induction d as [ | d IH] using Pos.peano_ind.
  - cbn. lia.
  - rewrite Pos.iter_succ, Pos2Z.inj_succ, Z.pow_succ_r by lia.
    rewrite Pos2Z.inj_xO, IH. lia.
Qed.

Lemma shl_align_value m e ez :
  (ez <= e)%Z -> Zpos (shl_align m e ez).1 = (Zpos m * 2 ^ (e - ez))%Z.
Proof.
  intros H. unfold shl_align.
  destruct (ez - e)%Z as [ | d | d] eqn:E; cbn [fst]; try lia.
  - replace (e - ez)%Z with 0%Z by lia. lia.
  - rewrite iter_xO_value. f_equal. f_equal. lia.
Qed.

Lemma canonical_lt m1 e1 m2 e2 :
  canonical_mantissa prec emax m1 e1 = true ->
  canonical_mantissa prec emax m2 e2 = true ->
  (e1 < e2)%Z ->
  (Zpos m1 < Zpos m2 * 2 ^ (e2 - e1))%Z.
Proof.
  unfold canonical_mantissa, fexp. intros C1 C2 L.
  apply Z.eqb_eq in C1, C2.
  pose proof (digits2_pos_bounds m1) as [_ U1].
  pose proof (digits2_pos_bounds m2) as [L2 _].
  assert (D1 : (Zpos (digits2_pos m1) <= prec)%Z) by lia.
  assert (D2 : Zpos (digits2_pos m2) = prec) by lia.
  rewrite D2 in L2.
  assert (P1 : (2 ^ Zpos (digits2_pos m1) <= 2 ^ prec)%Z)
    by (apply Z.pow_le_mono_r; lia).
  assert (P2 : (2 ^ 1 <= 2 ^ (e2 - e1))%Z) by (apply Z.pow_le_mono_r; lia).
  assert (P3 : (2 ^ prec = 2 ^ (prec - 1) * 2 ^ 1)%Z).
  { rewrite <- Z.pow_add_r by lia. f_equal. lia. }
  nia.
Qed.

Lemma SFleb_aligned sx mx ex sy my ey :
  bounded prec emax mx ex = true ->
  bounded prec emax my ey = true ->
  SFleb (S754_finite sx mx ex) (S754_finite sy my ey) = true ->
  (aligned sx mx ex (Z.min ey ex) <= aligned sy my ey (Z.min ey ex))%Z.
Proof.
  unfold bounded. intros Bx By.
  apply andb_prop in Bx as [Cx _]. apply andb_prop in By as [Cy _].
  unfold aligned. rewrite !shl_align_value by lia.
  unfold SFleb, SFcompare.
  assert (Px : (0 < 2 ^ (ex - Z.min ey ex))%Z) by (apply Z.pow_pos_nonneg; lia).
  assert (Py : (0 < 2 ^ (ey - Z.min ey ex))%Z) by (apply Z.pow_pos_nonneg; lia).
  destruct sx, sy; cbn [cond_Zopp]; try discriminate; try nia.
  - destruct (Z.compare_spec ex ey) as [E | L | G]; try discriminate.
    + subst ey. rewrite Pos.compare_cont_spec. cbn [Pos.switch_Eq].
      destruct (Pos.compare_spec mx my) as [E | L | G]; cbn; try discriminate; nia.
    + intros _. replace (Z.min ey ex) with ey by lia.
      replace (ey - ey)%Z with 0%Z by lia.
      pose proof (canonical_lt _ _ _ _ Cy Cx G). nia.
  - destruct (Z.compare_spec ex ey) as [E | L | G]; try discriminate.
    + subst ey. rewrite Pos.compare_cont_spec. cbn [Pos.switch_Eq].
      destruct (Pos.compare_spec mx my) as [E | L | G]; try discriminate; nia.
    + intros _. replace (Z.min ey ex) with ex by lia.
      replace (ex - ex)%Z with 0%Z by lia.
      pose proof (canonical_lt _ _ _ _ Cx Cy L). nia.
Qed.

Lemma has_sign_false_nonneg x :
  has_sign false x = true -> SFleb (S754_zero false) x = true.
Proof. now destruct x as [ [ | ] | [ | ] | | [ | ] m e]. Qed.

Lemma SFsub_nonneg x y :
  SpecFloat.valid_binary prec emax x = true ->
  SpecFloat.valid_binary prec emax y = true ->
  SFis_finite x = true ->
  SFis_finite y = true ->
  SFleb x y = true ->
  has_sign false (SFsub prec emax y x) = true.
Proof.
  intros Vx Vy Fx Fy L.
  destruct x as [sx | sx | | sx mx ex], y as [sy | sy | | sy my ey];
    try discriminate.
  - now destruct sx, sy.
  - now destruct sy.
  - now destruct sx.
  - cbn [SFsub]. apply binary_normalize_sign.
    pose proof (SFleb_aligned _ _ _ _ _ _ Vx Vy L) as H. unfold aligned in H.
    lia.
Qed.

End Rounding.

(** ** Binary64 *)

Lemma Prim2SF_finite a :
  PrimFloat.is_finite a = true -> SFis_finite (Prim2SF a) = true.
Proof.
  unfold PrimFloat.is_finite, Prim2SF. intros H.
  apply negb_true_iff, orb_false_iff in H as [N I]. rewrite N, I.
  destruct (is_zero a); [reflexivity | ].
  destruct (Z.frexp a) as [r e].
  destruct (shr_fexp _ _ _ _ _) as [mrs e'].
  now destruct (shr_m mrs).
Qed.

Lemma Prim2SF_zero : Prim2SF 0 = S754_zero false.
Proof. reflexivity. Qed.

Lemma Prim2SF_1000 : Prim2SF 1000 = S754_finite false 8796093022208000 (-43).
Proof. reflexivity. Qed.

(** The difference of two finite floats in order is not negative. *)
Lemma float_sub_nonneg (a b : float) :
  PrimFloat.is_finite a = true ->
  PrimFloat.is_finite b = true ->
  (a <=? b)%float = true ->
  has_sign false (Prim2SF (b - a)) = true.
Proof.
  intros Fa Fb L. rewrite sub_spec. rewrite leb_spec in L.
  apply SFsub_nonneg; auto using Prim2SF_valid, Prim2SF_finite.
Qed.

Lemma float_nonneg_leb x :
  has_sign false (Prim2SF x) = true -> (0 <=? x)%float = true.
Proof.
  intros H. rewrite leb_spec, Prim2SF_zero. now apply has_sign_false_nonneg.
Qed.

Lemma float_mul_1000_nonneg x :
  has_sign false (Prim2SF x) = true ->
  has_sign false (Prim2SF (x * 1000)) = true.
Proof.
  intros H. rewrite mul_spec, Prim2SF_1000.
  destruct (Prim2SF x) as [s | s | | s m e]; try discriminate; cbn in H |- *.
  - reflexivity.
  - now destruct s.
  - destruct s; [discriminate | ]. cbn [xorb].
    now apply binary_round_aux_sign.
Qed.

Lemma float_eqb_refl x :
  has_sign false (Prim2SF x) = true -> (x =? x)%float = true.
Proof.
  intros H. rewrite FloatAxioms.eqb_spec. unfold SFeqb, SFcompare.
  destruct (Prim2SF x) as [s | s | | s m e]; try discriminate.
  - reflexivity.
  - now destruct s.
  - rewrite Z.compare_refl, Pos.compare_cont_refl. now destruct s.
Qed.

(** * The methods of [Timer] *)

Section TimerFacts.

Context {W : Type}.
Implicit Types (s : @state W) (self l : loc) (d : gmap string (@value W)).

(** ** Equations of the monad and of attribute access *)

Lemma bind_Ok {A B} (m : M A) (f : A -> M B) s a s' :
  m s = (Ok a, s') -> (m ≫= f) s = f a s'.
Proof. intros E. unfold mbind, M_bind. now rewrite E. Qed.

Lemma getattr_Data self name s v :
  instance_dict s self !! name = Some v ->
  getattr self name s = (Ok (Data v), s).
Proof. intros E. unfold getattr. now rewrite E. Qed.

Lemma getattr_Bound self name s m :
  instance_dict s self !! name = None ->
  Timer_namespace !! name = Some m ->
  getattr self name s = (Ok (Bound m self), s).
Proof. intros E C. unfold getattr. now rewrite E, C. Qed.

Lemma call_callable f s :
  call (Data (VCallable f)) s =
    (Ok (VFloat (f (world s)).1), State (heap s) (f (world s)).2).
Proof. reflexivity. Qed.

(** The names the class body reads or calls are not names of the class:
    looking one up never gives a bound method. *)
Lemma getattr_timer self s :
  getattr self "timer" s =
    match instance_dict s self !! "timer" with
    | Some v => (Ok (Data v), s)
    | None => (Raise (AttributeError "timer"), s)
    end.
Proof. unfold getattr. now destruct (instance_dict s self !! "timer"). Qed.

(** [start], [end], [timer] and [elapsed_s] are not names of the class. *)
Lemma namespace_start : Timer_namespace !! "start" = None.
Proof. reflexivity. Qed.

Lemma namespace_end : Timer_namespace !! "end" = None.
Proof. reflexivity. Qed.

Lemma namespace_timer : Timer_namespace !! "timer" = None.
Proof. reflexivity. Qed.

Lemma namespace_elapsed_s : Timer_namespace !! "elapsed_s" = None.
Proof. reflexivity. Qed.

Lemma namespace_elapsed_ms : Timer_namespace !! "elapsed_ms" = Some m_elapsed_ms.
Proof. reflexivity. Qed.

(** Runs an unfolded method as far as the attributes are known. *)
Ltac dict_simpl :=
  repeat first
    [ rewrite lookup_total_insert_eq
    | rewrite namespace_start
    | rewrite namespace_end
    | rewrite namespace_timer
    | rewrite namespace_elapsed_s
    | rewrite namespace_elapsed_ms
    | rewrite lookup_insert_eq
    | rewrite lookup_insert_ne by done
    | rewrite insert_insert_eq ].

Ltac run_method :=
  unfold instance_dict in *;
  repeat progress
    (unfold mbind, M_bind, mret, M_ret, getattr, setattr, raise, int_1000,
       instance_dict;
     cbn [fst snd heap world is_None py_sub py_mul call];
     dict_simpl;
     repeat match goal with
            | H : _ !! _ = _ |- _ => rewrite H
            end).

(** ** Scope entry *)

(** C7: from any state of the instance, [__enter__] reads the bound time
    source exactly once, overwrites [start] with the reading, sets [end]
    to [None], leaves every other attribute and instance alone, and returns
    the address it was given. *)
Theorem enter_overwrites_start_and_returns_self self s (t : callable) :
  instance_dict s self !! "timer" = Some (VCallable t) ->
  __enter__ self s =
    (Ok self,
     State (<[self := <["end" := VNone]>
                        (<["start" := VFloat (t (world s)).1]> (instance_dict s self))]>
              (heap s))
           (t (world s)).2).
Proof.
  intros Ht. unfold __enter__.
  rewrite (bind_Ok _ _ _ _ _ (getattr_Data _ _ _ _ Ht)).
  rewrite (bind_Ok _ _ _ _ _ (call_callable t s)).
  unfold setattr, mbind, M_bind, mret, M_ret, instance_dict. cbn.
  rewrite !lookup_total_insert_eq.
  now rewrite insert_insert_eq.
Qed.

(** The attributes right after [__enter__]. *)
Lemma entered_attrs self s (t : callable) :
  instance_dict s self !! "timer" = Some (VCallable t) ->
  (__enter__ self s).1 = Ok self
  ∧ instance_dict (__enter__ self s).2 self !! "timer" = Some (VCallable t)
  ∧ instance_dict (__enter__ self s).2 self !! "start" = Some (VFloat (t (world s)).1)
  ∧ instance_dict (__enter__ self s).2 self !! "end" = Some VNone.
Proof.
  intros Ht. unfold __enter__. run_method. cbn [fst snd heap].
  dict_simpl. done.
Qed.

(** ** Direct call *)

(** C8: in any state of the instance, calling it returns one reading of
    the bound time source; the heap, hence [start], [end] and the cached
    elapsed values of the instance, is left as it was. *)
Theorem call_returns_reading_and_keeps_heap self s (t : callable) :
  instance_dict s self !! "timer" = Some (VCallable t) ->
  __call__ self s = (Ok (VFloat (t (world s)).1), State (heap s) (t (world s)).2).
Proof.
  intros Ht. unfold __call__.
  rewrite (bind_Ok _ _ _ _ _ (getattr_Data _ _ _ _ Ht)).
  apply call_callable.
Qed.

(** ** The two queries *)

(** C3: with [start] set, while [end] is [None] each query takes a fresh
    reading and returns it minus [start] (times 1000 for milliseconds);
    once [end] holds a reading each returns [end - start] (times 1000)
    and reads no clock. *)
Theorem elapsed_live_then_fixed self s a :
  instance_dict s self !! "start" = Some (VFloat a) ->
  (∀ t : callable,
      instance_dict s self !! "timer" = Some (VCallable t) ->
      instance_dict s self !! "end" = Some VNone ->
      elapsed self s =
        (Ok (VFloat ((t (world s)).1 - a)), State (heap s) (t (world s)).2)
      ∧ elapsed_ms self s =
        (Ok (VFloat (((t (world s)).1 - a) * 1000)), State (heap s) (t (world s)).2))
  ∧ (∀ b,
      instance_dict s self !! "end" = Some (VFloat b) ->
      elapsed self s = (Ok (VFloat (b - a)), s)
      ∧ elapsed_ms self s = (Ok (VFloat ((b - a) * 1000)), s)).
Proof.
  intros Ha. split.
  - intros t Ht He. unfold elapsed, elapsed_ms. run_method. done.
  - intros b He. unfold elapsed, elapsed_ms. run_method. done.
Qed.

(** C5: while [start] is unset both queries raise [AttributeError]: on
    [end] when that is unset too, and on [start] otherwise. *)
Theorem elapsed_before_entry_raises self s (t : callable) :
  instance_dict s self !! "timer" = Some (VCallable t) ->
  instance_dict s self !! "start" = None ->
  ∃ name s',
    elapsed self s = (Raise (AttributeError name), s')
    ∧ elapsed_ms self s = (Raise (AttributeError name), s')
    ∧ name = match instance_dict s self !! "end" with
             | None => "end"
             | Some _ => "start"
             end.
Proof.
  intros Ht Hs. unfold elapsed, elapsed_ms.
  destruct (instance_dict s self !! "end") as [[ | b | f] | ] eqn:He.
  - exists "start", (State (heap s) (t (world s)).2). run_method. done.
  - exists "start", s. run_method. done.
  - exists "start", s. run_method. done.
  - exists "end", s. run_method. done.
Qed.

(** ** Scope exit *)

(** C10: with [start] unset, [__exit__] raises [AttributeError] on
    [start], and only after it has read the clock and stored the reading
    in [end]. *)
Theorem exit_before_entry_raises_after_setting_end
    self s (t : callable) exc_type exc_value exc_traceback :
  instance_dict s self !! "timer" = Some (VCallable t) ->
  instance_dict s self !! "start" = None ->
  __exit__ self exc_type exc_value exc_traceback s =
    (Raise (AttributeError "start"),
     State (<[self := <["end" := VFloat (t (world s)).1]> (instance_dict s self)]>
              (heap s))
           (t (world s)).2).
Proof.
  intros Ht Hs. unfold __exit__. run_method. done.
Qed.

(** What a completed [__exit__] leaves behind. *)
Lemma exit_Ok self s (t : callable) a exc_type exc_value exc_traceback :
  instance_dict s self !! "timer" = Some (VCallable t) ->
  instance_dict s self !! "start" = Some (VFloat a) ->
  __exit__ self exc_type exc_value exc_traceback s =
    (Ok VNone,
     State (<[self := <["elapsed_ms" := VFloat (((t (world s)).1 - a) * 1000)]>
                        (<["elapsed_s" := VFloat ((t (world s)).1 - a)]>
                           (<["end" := VFloat (t (world s)).1]>
                              (instance_dict s self)))]>
              (heap s))
           (t (world s)).2).
Proof.
  intros Ht Hs. unfold __exit__. run_method. done.
Qed.

(** ** A logic of invariants *)

Section Triples.

Variable I : @state W -> Prop.

Lemma triple_ret {A} (a : A) (Q : A -> Prop) : Q a -> triple I (mret a) Q.
Proof. intros Ha s Hs. now split. Qed.

Lemma triple_raise {A} e (Q : A -> Prop) : triple I (raise e) Q.
Proof. intros s Hs. now split. Qed.

Lemma triple_bind {A B} (m : @M W A) (f : A -> @M W B) Q R :
  triple I m Q -> (∀ a, Q a -> triple I (f a) R) -> triple I (m ≫= f) R.
Proof.
  intros Hm Hf s Hs. unfold mbind, M_bind.
  destruct (Hm s Hs) as [I1 Q1]. destruct (m s) as [[a | e] s1]; cbn in *.
  - now apply Hf.
  - now split.
Qed.

Lemma triple_getattr self name : triple I (getattr self name) (λ _, True).
Proof.
  intros s Hs. unfold getattr.
  destruct (instance_dict s self !! name); [ | destruct (Timer_namespace !! name)];
    now split.
Qed.

Lemma triple_setattr self name v :
  writable I self name v -> triple I (setattr self name v) (λ _, True).
Proof. intros Hw s Hs. split; [now apply Hw | exact Logic.I]. Qed.

Lemma triple_call a : timeless I -> triple I (call a) is_float.
Proof.
  intros HI s Hs. destruct a as [[ | x | f] | m l]; cbn; try now split.
  split; [ | now eexists]. destruct s as [h w]. now apply (HI h w).
Qed.

Lemma triple_py_sub a b : triple I (py_sub a b) is_float.
Proof.
  intros s Hs. destruct a as [[ | x | f] | m l]; try now split.
  destruct b as [[ | y | g] | m l]; try now split.
  split; [exact Hs | now eexists].
Qed.

Lemma triple_py_mul a b : triple I (py_mul a b) is_float.
Proof.
  intros s Hs. destruct a as [[ | x | f] | m l]; try now split.
  destruct b as [[ | y | g] | m l]; try now split.
  split; [exact Hs | now eexists].
Qed.

(** *** What each method returns and writes *)

Hypothesis I_timeless : timeless I.

Ltac triple_step :=
  first
    [ eapply triple_bind; [ apply triple_getattr | intros ? _ ]
    | eapply triple_bind; [ apply triple_call, I_timeless | intros ? [? ->] ]
    | eapply triple_bind; [ apply triple_py_sub | intros ? [? ->] ]
    | eapply triple_bind; [ apply triple_py_mul | intros ? [? ->] ]
    | eapply triple_bind; [ apply triple_setattr; solve [auto] | intros ? _ ]
    | apply triple_call, I_timeless
    | apply triple_py_sub
    | apply triple_py_mul
    | apply triple_ret; reflexivity
    | match goal with |- triple _ (if ?b then _ else _) _ => destruct b end ].

Lemma call_triple self : triple I (__call__ self) is_float.
Proof. unfold __call__. repeat triple_step. Qed.

Lemma elapsed_triple self : triple I (elapsed self) is_float.
Proof. unfold elapsed. repeat triple_step. Qed.

Lemma elapsed_ms_triple self : triple I (elapsed_ms self) is_float.
Proof. unfold elapsed_ms. repeat triple_step. Qed.

Lemma enter_triple self :
  (∀ x, writable I self "start" (VFloat x)) ->
  writable I self "end" VNone ->
  triple I (__enter__ self) (λ l, l = self).
Proof. intros Hs He. unfold __enter__. repeat triple_step. Qed.

Lemma exit_triple self x y z :
  (∀ r, writable I self "end" (VFloat r)) ->
  (∀ r, writable I self "elapsed_s" (VFloat r)) ->
  (∀ r, writable I self "elapsed_ms" (VFloat r)) ->
  triple I (__exit__ self x y z) (λ v, v = VNone).
Proof. intros He Hs Hm. unfold __exit__. repeat triple_step. Qed.

End Triples.

(** An assignment keeps an invariant on another attribute, or on another
    instance, or one that the new value satisfies. *)
Lemma attr_inv_writable l n (P : option (@value W) -> Prop) self name v :
  self ≠ l ∨ name ≠ n ∨ P (Some v) ->
  writable (attr_inv l n P) self name v.
Proof.
  intros H s. unfold attr_inv, setattr, instance_dict. cbn.
  destruct (decide (self = l)) as [-> | Hl].
  - rewrite lookup_total_insert_eq.
    destruct (decide (name = n)) as [-> | Hn].
    + rewrite lookup_insert_eq. intros _. destruct H as [H | [H | H]]; done.
    + now rewrite lookup_insert_ne.
  - now rewrite lookup_total_insert_ne.
Qed.

Lemma attr_inv_timeless l n (P : option (@value W) -> Prop) :
  timeless (attr_inv l n P).
Proof. now intros h w w'. Qed.

(** ** Along a history *)

(** No call rebinds [timer], on this instance or another. *)
Lemma run_ops_keeps_timer self l os s :
  instance_dict (run_ops self os s) l !! "timer" = instance_dict s l !! "timer".
Proof.
  unfold run_ops. revert s. induction os as [ | o os IH]; intros s; [done | ].
  cbn [foldl]. rewrite IH.
  set (I := attr_inv l "timer" (λ v, v = instance_dict s l !! "timer")).
  assert (HI : I s) by reflexivity.
  assert (Hw : ∀ name v, name ≠ "timer" -> writable I self name v)
    by (intros name v N; apply attr_inv_writable; auto).
  destruct o as [ | | x y z | | | f]; cbn [run_op].
  - apply (call_triple I (attr_inv_timeless _ _ _) self s HI).
  - apply (enter_triple I (attr_inv_timeless _ _ _) self) with (s := s); auto.
  - apply (exit_triple I (attr_inv_timeless _ _ _) self) with (s := s); auto.
  - apply (elapsed_triple I (attr_inv_timeless _ _ _) self s HI).
  - apply (elapsed_ms_triple I (attr_inv_timeless _ _ _) self s HI).
  - reflexivity.
Qed.

(** A call on one instance leaves every attribute of another alone. *)
Lemma run_ops_other self l os s :
  l ≠ self -> instance_dict (run_ops self os s) l = instance_dict s l.
Proof.
  intros Hl. apply map_eq. intros n.
  unfold run_ops. revert s. induction os as [ | o os IH]; intros s; [done | ].
  cbn [foldl]. rewrite IH.
  set (I := attr_inv l n (λ v, v = instance_dict s l !! n)).
  assert (HI : I s) by reflexivity.
  assert (Hw : ∀ name v, writable I self name v)
    by (intros name v; apply attr_inv_writable; auto).
  destruct o as [ | | x y z | | | f]; cbn [run_op].
  - apply (call_triple I (attr_inv_timeless _ _ _) self s HI).
  - apply (enter_triple I (attr_inv_timeless _ _ _) self) with (s := s); auto.
  - apply (exit_triple I (attr_inv_timeless _ _ _) self) with (s := s); auto.
  - apply (elapsed_triple I (attr_inv_timeless _ _ _) self s HI).
  - apply (elapsed_ms_triple I (attr_inv_timeless _ _ _) self s HI).
  - reflexivity.
Qed.

(** Only [__enter__] sets [start]. *)
Lemma run_ops_never_entered self os s :
  instance_dict s self !! "start" = None ->
  forallb (λ o, negb (is_enter o)) os = true ->
  instance_dict (run_ops self os s) self !! "start" = None.
Proof.
  unfold run_ops. revert s. induction os as [ | o os IH]; intros s Hs Hos; [done | ].
  cbn [forallb] in Hos. apply andb_prop in Hos as [Ho Hos].
  cbn [foldl]. apply IH; [ | exact Hos].
  set (I := @attr_inv W self "start" (λ v, v = None)).
  assert (HI : I s) by exact Hs.
  assert (Hw : ∀ name v, name ≠ "start" -> writable I self name v)
    by (intros name v N; apply attr_inv_writable; auto).
  destruct o as [ | | x y z | | | f]; cbn [run_op]; try discriminate.
  - apply (call_triple I (attr_inv_timeless _ _ _) self s HI).
  - apply (exit_triple I (attr_inv_timeless _ _ _) self) with (s := s); auto.
  - apply (elapsed_triple I (attr_inv_timeless _ _ _) self s HI).
  - apply (elapsed_ms_triple I (attr_inv_timeless _ _ _) self s HI).
  - exact Hs.
Qed.

(** Only [__exit__] caches a value under [elapsed_ms]. *)
Lemma run_ops_never_exited self os s :
  instance_dict s self !! "elapsed_ms" = None ->
  forallb (λ o, negb (is_exit o)) os = true ->
  instance_dict (run_ops self os s) self !! "elapsed_ms" = None.
Proof.
  unfold run_ops. revert s. induction os as [ | o os IH]; intros s Hs Hos; [done | ].
  cbn [forallb] in Hos. apply andb_prop in Hos as [Ho Hos].
  cbn [foldl]. apply IH; [ | exact Hos].
  set (I := @attr_inv W self "elapsed_ms" (λ v, v = None)).
  assert (HI : I s) by exact Hs.
  assert (Hw : ∀ name v, name ≠ "elapsed_ms" -> writable I self name v)
    by (intros name v N; apply attr_inv_writable; auto).
  destruct o as [ | | x y z | | | f]; cbn [run_op]; try discriminate.
  - apply (call_triple I (attr_inv_timeless _ _ _) self s HI).
  - apply (enter_triple I (attr_inv_timeless _ _ _) self) with (s := s); auto.
  - apply (elapsed_triple I (attr_inv_timeless _ _ _) self s HI).
  - apply (elapsed_ms_triple I (attr_inv_timeless _ _ _) self s HI).
  - exact Hs.
Qed.

(** Once a number is cached under [elapsed_ms], a number stays there. *)
Lemma run_ops_cached_ms self os s :
  (∃ x, instance_dict s self !! "elapsed_ms" = Some (VFloat x)) ->
  ∃ x, instance_dict (run_ops self os s) self !! "elapsed_ms" = Some (VFloat x).
Proof.
  unfold run_ops. revert s. induction os as [ | o os IH]; intros s Hs; [done | ].
  cbn [foldl]. apply IH.
  set (I := @attr_inv W self "elapsed_ms" (λ v, ∃ x, v = Some (VFloat x))).
  assert (HI : I s) by exact Hs.
  assert (Hw : ∀ name v, name ≠ "elapsed_ms" -> writable I self name v)
    by (intros name v N; apply attr_inv_writable; auto).
  assert (Hm : ∀ r, writable I self "elapsed_ms" (VFloat r))
    by (intros r; apply attr_inv_writable; right; right; now eexists).
  destruct o as [ | | x y z | | | f]; cbn [run_op].
  - apply (call_triple I (attr_inv_timeless _ _ _) self s HI).
  - apply (enter_triple I (attr_inv_timeless _ _ _) self) with (s := s); auto.
  - apply (exit_triple I (attr_inv_timeless _ _ _) self) with (s := s); auto.
  - apply (elapsed_triple I (attr_inv_timeless _ _ _) self s HI).
  - apply (elapsed_ms_triple I (attr_inv_timeless _ _ _) self s HI).
  - exact Hs.
Qed.

(** ** Exceptions in the timed block *)

(** When [__exit__] returns, it returns [None]. *)
Lemma exit_returns_None self x y z s v s' :
  __exit__ self x y z s = (Ok v, s') -> v = VNone.
Proof.
  intros E.
  assert (T : @triple W _ (λ _, True) (__exit__ self x y z) (λ v, v = VNone)).
  { apply exit_triple; try done; intros ? ? ?; exact Logic.I. }
  destruct (T s Logic.I) as [_ H]. now rewrite E in H.
Qed.

(** C4: [__exit__] does the same whatever its three arguments are; when
    it returns, it returns [None], which is false, so the [with] statement
    raises the exception of the block again.  Hence, whether the block
    ends normally or raises, and as long as the block leaves the
    attributes of the timer alone, the statement ends as the block did,
    with [end] and both elapsed values stored. *)
Theorem exit_ignores_exception_and_never_suppresses self s (t : callable) :
  instance_dict s self !! "timer" = Some (VCallable t) ->
  (∀ x y z x' y' z' s0,
      __exit__ self x y z s0 = __exit__ self x' y' z' s0)
  ∧ (∀ x y z s0 v s', __exit__ self x y z s0 = (Ok v, s') -> truthy v = false)
  ∧ (∀ (body : loc -> M unit) (outcome : result unit) s2,
      let s1 := (__enter__ self s).2 in
      let r1 := (t (world s)).1 in
      let r2 := (t (world s2)).1 in
      body self s1 = (outcome, s2) ->
      instance_dict s2 self = instance_dict s1 self ->
      with_ self body s =
        (outcome,
         State (<[self := <["elapsed_ms" := VFloat ((r2 - r1) * 1000)]>
                            (<["elapsed_s" := VFloat (r2 - r1)]>
                               (<["end" := VFloat r2]> (instance_dict s1 self)))]>
                  (heap s2))
               (t (world s2)).2)).
Proof.
  intros Ht. split; [reflexivity | split].
  - intros x y z s0 v s' E.
    now rewrite (exit_returns_None _ _ _ _ _ _ _ E).
  - intros body outcome s2 s1 r1 r2 Hbody Hsame.
    destruct (entered_attrs self s t Ht) as (E1 & Ht1 & Hs1 & _).
    fold s1 in E1, Ht1, Hs1.
    assert (Ht2 : instance_dict s2 self !! "timer" = Some (VCallable t))
      by now rewrite Hsame.
    assert (Hs2 : instance_dict s2 self !! "start" = Some (VFloat r1))
      by now rewrite Hsame.
    unfold with_. rewrite (surjective_pairing (__enter__ self s)), E1.
    fold s1. rewrite Hbody.
    destruct outcome as [[] | e].
    + rewrite (bind_Ok _ _ _ _ _ (exit_Ok _ _ _ _ None None None Ht2 Hs2)).
      unfold mret, M_ret. now rewrite Hsame.
    + rewrite (exit_Ok _ _ _ _ (Some e) (Some e) (Some e) Ht2 Hs2). cbn.
      now rewrite Hsame.
Qed.

(** ** The name [elapsed_ms] *)

(** C9: once [__exit__] has completed, [self.elapsed_ms] is the number
    stored at exit, and calling it raises [TypeError]; whatever is called
    on the instance afterwards, the name stays a number that cannot be
    called.  On an instance that holds no such number (none of its scopes
    has exited) the name is the method. *)
Theorem elapsed_ms_is_number_after_exit self s (t : callable) a x y z :
  instance_dict s self !! "timer" = Some (VCallable t) ->
  instance_dict s self !! "start" = Some (VFloat a) ->
  let s' := (__exit__ self x y z s).2 in
  let ms := (((t (world s)).1 - a) * 1000)%float in
  (__exit__ self x y z s).1 = Ok VNone
  ∧ getattr self "elapsed_ms" s' = (Ok (Data (VFloat ms)), s')
  ∧ call (Data (VFloat ms)) s' = (Raise TypeError, s')
  ∧ (∀ os, ∃ n,
        getattr self "elapsed_ms" (run_ops self os s') =
          (Ok (Data (VFloat n)), run_ops self os s')
        ∧ call (Data (VFloat n)) (run_ops self os s') =
          (Raise TypeError, run_ops self os s'))
  ∧ (instance_dict s self !! "elapsed_ms" = None ->
     getattr self "elapsed_ms" s = (Ok (Bound m_elapsed_ms self), s)).
Proof.
  intros Ht Hs s' ms.
  assert (Hms : instance_dict s' self !! "elapsed_ms" = Some (VFloat ms)).
  { subst s'. rewrite (exit_Ok _ _ _ _ x y z Ht Hs).
    unfold instance_dict. cbn. rewrite lookup_total_insert_eq.
    apply lookup_insert_eq. }
  split; [ | split; [ | split; [ | split ] ] ].
  - now rewrite (exit_Ok _ _ _ _ x y z Ht Hs).
  - now apply getattr_Data.
  - reflexivity.
  - intros os.
    destruct (run_ops_cached_ms self os s' (ex_intro _ ms Hms)) as [n Hn].
    exists n. split; [now apply getattr_Data | reflexivity].
  - intros Hn. now apply getattr_Bound.
Qed.

(** ** The cached elapsed values *)

(** C6: when the reading taken at exit is not below the reading taken at
    entry, both finite, the cached [elapsed_s] is their difference and is
    not negative, and the cached [elapsed_ms] is that value times 1000,
    as a float and under Python's [==]. *)
Theorem elapsed_nonneg_and_ms_exact self s (t : callable) s2 x y z :
  instance_dict s self !! "timer" = Some (VCallable t) ->
  let s1 := (__enter__ self s).2 in
  let r1 := (t (world s)).1 in
  let r2 := (t (world s2)).1 in
  instance_dict s2 self = instance_dict s1 self ->
  PrimFloat.is_finite r1 = true ->
  PrimFloat.is_finite r2 = true ->
  (r1 <=? r2)%float = true ->
  let s3 := (__exit__ self x y z s2).2 in
  let es := (r2 - r1)%float in
  let ems := (es * 1000)%float in
  instance_dict s3 self !! "start" = Some (VFloat r1)
  ∧ instance_dict s3 self !! "end" = Some (VFloat r2)
  ∧ instance_dict s3 self !! "elapsed_s" = Some (VFloat es)
  ∧ instance_dict s3 self !! "elapsed_ms" = Some (VFloat ems)
  ∧ (0 <=? es)%float = true
  ∧ (ems =? es * 1000)%float = true.
Proof.
  intros Ht s1 r1 r2 Hsame F1 F2 L s3 es ems.
  destruct (entered_attrs self s t Ht) as (_ & Ht1 & Hs1 & _).
  fold s1 in Ht1, Hs1.
  assert (Ht2 : instance_dict s2 self !! "timer" = Some (VCallable t))
    by now rewrite Hsame.
  assert (Hs2 : instance_dict s2 self !! "start" = Some (VFloat r1))
    by now rewrite Hsame.
  pose proof (float_sub_nonneg r1 r2 F1 F2 L) as N.
  subst s3. rewrite (exit_Ok _ _ _ _ x y z Ht2 Hs2).
  unfold instance_dict in *. cbn [snd heap]. rewrite lookup_total_insert_eq.
  repeat split.
  - now rewrite !lookup_insert_ne by done.
  - rewrite !lookup_insert_ne by done. apply lookup_insert_eq.
  - rewrite lookup_insert_ne by done. apply lookup_insert_eq.
  - apply lookup_insert_eq.
  - now apply float_nonneg_leb.
  - now apply float_eqb_refl, float_mul_1000_nonneg.
Qed.

(** * Further properties of the methods *)

(** ** Equations shared by the proofs below *)

Lemma enter_Ok self s (t : callable) :
  instance_dict s self !! "timer" = Some (VCallable t) ->
  __enter__ self s =
    (Ok self,
     State (<[self := <["end" := VNone]>
                        (<["start" := VFloat (t (world s)).1]> (instance_dict s self))]>
              (heap s))
           (t (world s)).2).
Proof. intros Ht. unfold __enter__. run_method. done. Qed.

Lemma exit_no_start self s (t : callable) x y z :
  instance_dict s self !! "timer" = Some (VCallable t) ->
  instance_dict s self !! "start" = None ->
  __exit__ self x y z s =
    (Raise (AttributeError "start"),
     State (<[self := <["end" := VFloat (t (world s)).1]> (instance_dict s self)]>
              (heap s))
           (t (world s)).2).
Proof. intros Ht Hs. unfold __exit__. run_method. done. Qed.

(** ** Reading without writing *)

Lemma call_keeps_heap self s : heap (__call__ self s).2 = heap s.
Proof.
  apply (call_triple (λ s', heap s' = heap s)); [ | reflexivity].
  now intros h w w'.
Qed.

Lemma elapsed_keeps_heap self s : heap (elapsed self s).2 = heap s.
Proof.
  apply (elapsed_triple (λ s', heap s' = heap s)); [ | reflexivity].
  now intros h w w'.
Qed.

Lemma elapsed_ms_keeps_heap self s : heap (elapsed_ms self s).2 = heap s.
Proof.
  apply (elapsed_ms_triple (λ s', heap s' = heap s)); [ | reflexivity].
  now intros h w w'.
Qed.

(** X1: [__call__], [elapsed] and [elapsed_ms] assign no attribute: in
    every state, and whether they return or raise, they leave every
    instance as it was. *)
Theorem queries_assign_nothing self s :
  heap (__call__ self s).2 = heap s
  ∧ heap (elapsed self s).2 = heap s
  ∧ heap (elapsed_ms self s).2 = heap s.
Proof.
  split; [ | split].
  - apply call_keeps_heap.
  - apply elapsed_keeps_heap.
  - apply elapsed_ms_keeps_heap.
Qed.

(** X2: each method reads the bound time source at most once.  [__call__],
    [__enter__] and [__exit__] read it exactly once, [__exit__] also when
    it goes on to fail; a query reads it once when [end] is [None] and not
    at all otherwise. *)
Theorem methods_read_the_clock_at_most_once self s (t : callable) x y z :
  instance_dict s self !! "timer" = Some (VCallable t) ->
  let once := (t (world s)).2 in
  let query := match instance_dict s self !! "end" with
               | Some VNone => once
               | _ => world s
               end in
  world (__call__ self s).2 = once
  ∧ world (__enter__ self s).2 = once
  ∧ world (__exit__ self x y z s).2 = once
  ∧ world (elapsed self s).2 = query
  ∧ world (elapsed_ms self s).2 = query.
Proof.
  intros Ht once query. subst once query.
  split; [ | split; [ | split; [ | split ] ] ].
  - unfold __call__. run_method. done.
  - now rewrite (enter_Ok _ _ _ Ht).
  - unfold __exit__.
    destruct (instance_dict s self !! "start") as [[ | a | f] | ] eqn:Hs;
      run_method; done.
  - unfold elapsed.
    destruct (instance_dict s self !! "end") as [[ | b | f] | ] eqn:He;
      destruct (instance_dict s self !! "start") as [[ | a | g] | ] eqn:Hs;
      run_method; done.
  - unfold elapsed_ms.
    destruct (instance_dict s self !! "end") as [[ | b | f] | ] eqn:He;
      destruct (instance_dict s self !! "start") as [[ | a | g] | ] eqn:Hs;
      run_method; done.
Qed.

(** ** Invariants along a history *)

(** An invariant that does not look at the clocks and survives the
    assignments the methods make holds along every history. *)
Lemma run_ops_invariant (I : @state W -> Prop) self os s :
  timeless I ->
  (∀ r, writable I self "start" (VFloat r)) ->
  writable I self "end" VNone ->
  (∀ r, writable I self "end" (VFloat r)) ->
  (∀ r, writable I self "elapsed_s" (VFloat r)) ->
  (∀ r, writable I self "elapsed_ms" (VFloat r)) ->
  I s -> I (run_ops self os s).
Proof.
  intros HI Hstart Hnone Hend Hs Hms. unfold run_ops. revert s.
  induction os as [ | o os IH]; intros s Hs0; [done | ].
  cbn [foldl]. apply IH.
  destruct o as [ | | x y z | | | f]; cbn [run_op].
  - apply (call_triple I HI self s Hs0).
  - apply (enter_triple I HI self) with (s := s); auto.
  - apply (exit_triple I HI self) with (s := s); auto.
  - apply (elapsed_triple I HI self s Hs0).
  - apply (elapsed_ms_triple I HI self s Hs0).
  - destruct s as [h w]. now apply (HI h w).
Qed.

(** An attribute that is set stays set. *)
Lemma run_ops_keeps_set self n os s :
  is_Some (instance_dict s self !! n) ->
  is_Some (instance_dict (run_ops self os s) self !! n).
Proof.
  assert (Hw : ∀ name v, writable (attr_inv self n is_Some) self name v)
    by (intros name v; apply attr_inv_writable; right; right; done).
  apply (run_ops_invariant (attr_inv self n is_Some) self os s); auto.
  apply attr_inv_timeless.
Qed.

(** An attribute that the methods do not assign keeps its value. *)
Lemma run_ops_unassigned self n os s :
  n ∉ assigned ->
  instance_dict (run_ops self os s) self !! n = instance_dict s self !! n.
Proof.
  intros Ha.
  set (I := @attr_inv W self n (λ v, v = instance_dict s self !! n)).
  assert (Hw : ∀ name v, name ∈ assigned -> writable I self name v).
  { intros name v Hname. apply attr_inv_writable. right; left.
    intros ->. now apply Ha. }
  apply (run_ops_invariant I self os s);
    try (intros; apply Hw; unfold assigned; set_unfold; tauto).
  - apply attr_inv_timeless.
  - reflexivity.
Qed.

(** X3: no call removes an attribute, and the calls add no attribute
    besides [start], [end], [elapsed_s] and [elapsed_ms]. *)
Theorem history_attribute_names self os s :
  dom (instance_dict s self) ⊆ dom (instance_dict (run_ops self os s) self)
  ∧ dom (instance_dict (run_ops self os s) self)
      ⊆ dom (instance_dict s self) ∪ assigned.
Proof.
  split; intros n Hn.
  - apply elem_of_dom, run_ops_keeps_set. now apply elem_of_dom.
  - destruct (decide (n ∈ assigned)) as [Ha | Ha]; [now apply elem_of_union_r | ].
    apply elem_of_union_l, elem_of_dom.
    apply elem_of_dom in Hn. now rewrite run_ops_unassigned in Hn.
Qed.

(** ** The shape of an instance is kept *)

Lemma run_op_consistent self s o :
  consistent (instance_dict s self) ->
  consistent (instance_dict (run_op self s o) self).
Proof.
  intros [[t Ht] Hc].
  destruct o as [ | | x y z | | | f]; cbn [run_op].
  - unfold instance_dict. rewrite call_keeps_heap. now split; [exists t | ].
  - rewrite (enter_Ok _ _ _ Ht). unfold instance_dict in *. cbn [snd heap].
    rewrite lookup_total_insert_eq. split.
    + exists t. now rewrite !lookup_insert_ne by done.
    + rewrite lookup_insert_ne, lookup_insert_eq, lookup_insert_eq by done.
      rewrite !(lookup_insert_ne _ _ "elapsed_s"),
        !(lookup_insert_ne _ _ "elapsed_ms") by done.
      destruct ((heap s !!! self) !! "start") as [[ | a | g] | ];
        destruct ((heap s !!! self) !! "end") as [[ | b | h] | ];
        try done; try (now left).
      right. now exists (b - a)%float.
  - destruct (instance_dict s self !! "start") as [[ | a | g] | ] eqn:Hs.
    + now destruct (instance_dict s self !! "end") as [[ | b | h] | ].
    + rewrite (exit_Ok _ _ _ _ x y z Ht Hs).
      unfold instance_dict in *. cbn [snd heap].
      rewrite lookup_total_insert_eq. split.
      * exists t. now rewrite !lookup_insert_ne by done.
      * rewrite !(lookup_insert_ne _ _ "start") by done. rewrite Hs.
        rewrite !(lookup_insert_ne _ _ "end"), lookup_insert_eq by done.
        rewrite (lookup_insert_ne _ _ "elapsed_s"), !lookup_insert_eq by done.
        done.
    + now destruct (instance_dict s self !! "end") as [[ | b | h] | ].
    + rewrite (exit_no_start _ _ _ x y z Ht Hs).
      unfold instance_dict in *. cbn [snd heap].
      rewrite lookup_total_insert_eq. split.
      * exists t. now rewrite !lookup_insert_ne by done.
      * rewrite (lookup_insert_ne _ _ "start"), Hs, lookup_insert_eq by done.
        rewrite !lookup_insert_ne by done.
        now destruct ((heap s !!! self) !! "end") as [[ | b | h] | ].
  - unfold instance_dict. rewrite elapsed_keeps_heap. now split; [exists t | ].
  - unfold instance_dict. rewrite elapsed_ms_keeps_heap. now split; [exists t | ].
  - now split; [exists t | ].
Qed.

Lemma run_ops_consistent self os s :
  consistent (instance_dict s self) ->
  consistent (instance_dict (run_ops self os s) self).
Proof.
  unfold run_ops. revert s. induction os as [ | o os IH]; intros s Hs; [done | ].
  cbn [foldl]. now apply IH, run_op_consistent.
Qed.

(** What the methods do on an instance of one of these shapes. *)
Lemma consistent_outcomes self s x y z :
  consistent (instance_dict s self) ->
  (∃ r, (__call__ self s).1 = Ok (VFloat r))
  ∧ (__enter__ self s).1 = Ok self
  ∧ match instance_dict s self !! "start" with
    | Some _ =>
        (∃ r, (elapsed self s).1 = Ok (VFloat r))
        ∧ (∃ r, (elapsed_ms self s).1 = Ok (VFloat r))
        ∧ (__exit__ self x y z s).1 = Ok VNone
    | None =>
        (∃ n, (elapsed self s).1 = Raise (AttributeError n))
        ∧ (∃ n, (elapsed_ms self s).1 = Raise (AttributeError n))
        ∧ (__exit__ self x y z s).1 = Raise (AttributeError "start")
    end.
Proof.
  intros [[t Ht] Hc]. split; [ | split].
  - unfold __call__. run_method. now eexists.
  - now rewrite (enter_Ok _ _ _ Ht).
  - destruct (instance_dict s self !! "start") as [[ | a | g] | ] eqn:Hs;
      destruct (instance_dict s self !! "end") as [[ | b | h] | ] eqn:He;
      try done.
    + split; [ | split].
      * unfold elapsed. run_method. now eexists.
      * unfold elapsed_ms. run_method. now eexists.
      * now rewrite (exit_Ok _ _ _ _ x y z Ht Hs).
    + split; [ | split].
      * unfold elapsed. run_method. now eexists.
      * unfold elapsed_ms. run_method. now eexists.
      * now rewrite (exit_Ok _ _ _ _ x y z Ht Hs).
    + split; [ | split].
      * unfold elapsed. run_method. now eexists.
      * unfold elapsed_ms. run_method. now eexists.
      * now rewrite (exit_no_start _ _ _ x y z Ht Hs).
    + split; [ | split].
      * unfold elapsed. run_method. now eexists.
      * unfold elapsed_ms. run_method. now eexists.
      * now rewrite (exit_no_start _ _ _ x y z Ht Hs).
Qed.

(** After [__enter__] was called once, [start] is set for good. *)
Lemma run_ops_entered self os s :
  consistent (instance_dict s self) ->
  existsb is_enter os = true ->
  is_Some (instance_dict (run_ops self os s) self !! "start").
Proof.
  unfold run_ops. revert s. induction os as [ | o os IH]; intros s Hc Hos;
    [discriminate | ].
  cbn [foldl]. cbn [existsb] in Hos. apply orb_prop in Hos as [Ho | Hos].
  - destruct o; try discriminate. cbn [run_op].
    apply (run_ops_keeps_set self "start" os).
    destruct Hc as [[t Ht] _]. rewrite (enter_Ok _ _ _ Ht).
    unfold instance_dict. cbn [snd heap].
    rewrite lookup_total_insert_eq, lookup_insert_ne, lookup_insert_eq by done.
    done.
  - apply IH; [ | exact Hos]. now apply run_op_consistent.
Qed.

(** ** Using an instance again *)

(** X4: [__enter__] does not clear the cached values.  Inside a scope
    entered after an earlier one, [elapsed_s] and [elapsed_ms] still hold
    the duration of the earlier scope, while [elapsed] measures from the
    new [start]. *)
Theorem reentry_keeps_stale_cache self s (t : callable) a x y z :
  instance_dict s self !! "timer" = Some (VCallable t) ->
  instance_dict s self !! "start" = Some (VFloat a) ->
  let r1 := (t (world s)).1 in
  let s1 := (__exit__ self x y z s).2 in
  let r2 := (t (world s1)).1 in
  let s2 := (__enter__ self s1).2 in
  let r3 := (t (world s2)).1 in
  instance_dict s2 self !! "start" = Some (VFloat r2)
  ∧ instance_dict s2 self !! "end" = Some VNone
  ∧ instance_dict s2 self !! "elapsed_s" = Some (VFloat (r1 - a))
  ∧ instance_dict s2 self !! "elapsed_ms" = Some (VFloat ((r1 - a) * 1000))
  ∧ (elapsed self s2).1 = Ok (VFloat (r3 - r2)).
Proof.
  intros Ht Hs r1 s1 r2 s2 r3.
  assert (E1 : __exit__ self x y z s = (Ok VNone, s1))
    by (subst s1; now rewrite (exit_Ok _ _ _ _ x y z Ht Hs)).
  assert (Ht1 : instance_dict s1 self !! "timer" = Some (VCallable t)).
  { subst s1. rewrite (exit_Ok _ _ _ _ x y z Ht Hs). unfold instance_dict in *.
    cbn [snd heap]. now rewrite lookup_total_insert_eq, !lookup_insert_ne by done. }
  assert (Hd : instance_dict s2 self =
               <["end" := VNone]> (<["start" := VFloat r2]> (instance_dict s1 self))).
  { subst s2. rewrite (enter_Ok _ _ _ Ht1). unfold instance_dict.
    cbn [snd heap]. now rewrite lookup_total_insert_eq. }
  assert (Hc1 : instance_dict s1 self !! "elapsed_s" = Some (VFloat (r1 - a))
                ∧ instance_dict s1 self !! "elapsed_ms"
                  = Some (VFloat ((r1 - a) * 1000))).
  { subst s1. rewrite (exit_Ok _ _ _ _ x y z Ht Hs). unfold instance_dict.
    cbn [snd heap]. rewrite lookup_total_insert_eq.
    now rewrite lookup_insert_eq, lookup_insert_ne, lookup_insert_eq by done. }
  destruct Hc1 as [Hes Hems].
  assert (Hstart : instance_dict s2 self !! "start" = Some (VFloat r2))
    by (rewrite Hd; now rewrite lookup_insert_ne, lookup_insert_eq by done).
  assert (Hend : instance_dict s2 self !! "end" = Some VNone)
    by (rewrite Hd; now rewrite lookup_insert_eq).
  assert (Ht2 : instance_dict s2 self !! "timer" = Some (VCallable t))
    by (rewrite Hd; now rewrite !lookup_insert_ne by done).
  repeat split; trivial.
  - rewrite Hd. now rewrite !lookup_insert_ne by done.
  - rewrite Hd. now rewrite !lookup_insert_ne by done.
  - unfold elapsed. clear Hd Ht Hs Ht1 Hes Hems E1. run_method. done.
Qed.

(** ** The sign of the live values *)

(** X5: inside a scope, when the reading a query takes is finite and not
    below a finite [start], [elapsed] and [elapsed_ms] return values that
    are not negative. *)
Theorem live_elapsed_nonneg self s (t : callable) a :
  instance_dict s self !! "timer" = Some (VCallable t) ->
  instance_dict s self !! "start" = Some (VFloat a) ->
  instance_dict s self !! "end" = Some VNone ->
  PrimFloat.is_finite a = true ->
  PrimFloat.is_finite (t (world s)).1 = true ->
  (a <=? (t (world s)).1)%float = true ->
  ∃ e ms,
    (elapsed self s).1 = Ok (VFloat e)
    ∧ (elapsed_ms self s).1 = Ok (VFloat ms)
    ∧ (0 <=? e)%float = true
    ∧ (0 <=? ms)%float = true.
Proof.
  intros Ht Hs He Fa Fr L.
  exists ((t (world s)).1 - a)%float, (((t (world s)).1 - a) * 1000)%float.
  pose proof (float_sub_nonneg _ _ Fa Fr L) as N.
  split; [ | split; [ | split ] ].
  - unfold elapsed. run_method. done.
  - unfold elapsed_ms. run_method. done.
  - now apply float_nonneg_leb.
  - now apply float_nonneg_leb, float_mul_1000_nonneg.
Qed.

(** The instance and the clocks after [__enter__] and after a completed
    [__exit__]. *)
Lemma enter_dict self s (t : callable) :
  instance_dict s self !! "timer" = Some (VCallable t) ->
  (__enter__ self s).1 = Ok self
  ∧ instance_dict (__enter__ self s).2 self =
      <["end" := VNone]> (<["start" := VFloat (t (world s)).1]> (instance_dict s self))
  ∧ world (__enter__ self s).2 = (t (world s)).2.
Proof.
  intros Ht. rewrite (enter_Ok _ _ _ Ht). unfold instance_dict. cbn.
  now rewrite lookup_total_insert_eq.
Qed.

Lemma exit_dict self s (t : callable) a x y z :
  instance_dict s self !! "timer" = Some (VCallable t) ->
  instance_dict s self !! "start" = Some (VFloat a) ->
  (__exit__ self x y z s).1 = Ok VNone
  ∧ instance_dict (__exit__ self x y z s).2 self =
      <["elapsed_ms" := VFloat (((t (world s)).1 - a) * 1000)]>
        (<["elapsed_s" := VFloat ((t (world s)).1 - a)]>
           (<["end" := VFloat (t (world s)).1]> (instance_dict s self)))
  ∧ world (__exit__ self x y z s).2 = (t (world s)).2.
Proof.
  intros Ht Hs. rewrite (exit_Ok _ _ _ _ x y z Ht Hs). unfold instance_dict. cbn.
  now rewrite lookup_total_insert_eq.
Qed.

(** X6: a scope of an instance opened inside a scope of the same instance
    takes the measurement over.  When both scopes have ended, [start] is
    the reading of the inner entry and the cached values are measured from
    it; the reading of the outer entry is lost. *)
Theorem nested_scopes_measure_from_inner_entry self s (t : callable) (f : W -> W) :
  instance_dict s self !! "timer" = Some (VCallable t) ->
  let w1 := (t (world s)).2 in
  let r2 := (t w1).1 in
  let w2 := (t w1).2 in
  let w3 := (t (f w2)).2 in
  let r4 := (t w3).1 in
  let w4 := (t w3).2 in
  let nested := with_ self (λ v, with_ v (idle f)) s in
  nested.1 = Ok ()
  ∧ instance_dict nested.2 self !! "start" = Some (VFloat r2)
  ∧ instance_dict nested.2 self !! "end" = Some (VFloat r4)
  ∧ instance_dict nested.2 self !! "elapsed_s" = Some (VFloat (r4 - r2))
  ∧ instance_dict nested.2 self !! "elapsed_ms" = Some (VFloat ((r4 - r2) * 1000))
  ∧ world nested.2 = w4.
Proof.
  intros Ht w1 r2 w2 w3 r4 w4 nested.
  (* the outer entry *)
  destruct (enter_dict self s t Ht) as (E1 & D1 & W1).
  set (s1 := (__enter__ self s).2) in *.
  assert (Ht1 : instance_dict s1 self !! "timer" = Some (VCallable t))
    by (rewrite D1; now rewrite !lookup_insert_ne by done).
  (* the inner entry *)
  destruct (enter_dict self s1 t Ht1) as (E2 & D2 & W2).
  set (s2 := (__enter__ self s1).2) in *.
  assert (Ht2 : instance_dict s2 self !! "timer" = Some (VCallable t))
    by (rewrite D2; now rewrite !lookup_insert_ne by done).
  assert (Hs2 : instance_dict s2 self !! "start" = Some (VFloat r2)).
  { rewrite D2, lookup_insert_ne, lookup_insert_eq by done.
    subst r2 w1. now rewrite W1. }
  (* the block, then the inner exit *)
  set (s2' := State (heap s2) (f (world s2))).
  destruct (exit_dict self s2' t r2 None None None Ht2 Hs2) as (E3 & D3 & W3).
  set (s3 := (__exit__ self None None None s2').2) in *.
  assert (Ht3 : instance_dict s3 self !! "timer" = Some (VCallable t))
    by (rewrite D3; now rewrite !lookup_insert_ne by done).
  assert (Hs3 : instance_dict s3 self !! "start" = Some (VFloat r2))
    by (rewrite D3; now rewrite !lookup_insert_ne by done).
  assert (Inner : with_ self (idle f) s1 = (Ok (), s3)).
  { unfold with_. rewrite (surjective_pairing (__enter__ self s1)), E2.
    fold s2. unfold idle at 1. fold s2'.
    unfold mbind, M_bind, mret, M_ret.
    now rewrite (surjective_pairing (__exit__ self None None None s2')), E3. }
  (* the outer exit *)
  destruct (exit_dict self s3 t r2 None None None Ht3 Hs3) as (E4 & D4 & W4).
  assert (Outer : nested = (Ok (), (__exit__ self None None None s3).2)).
  { subst nested. unfold with_ at 1.
    rewrite (surjective_pairing (__enter__ self s)), E1. fold s1.
    rewrite Inner. unfold mbind, M_bind, mret, M_ret.
    now rewrite (surjective_pairing (__exit__ self None None None s3)), E4. }
  assert (W3' : world s3 = w3).
  { rewrite W3. unfold s2'. cbn [world]. rewrite W2, W1. reflexivity. }
  rewrite W3' in D4, W4. fold r4 in D4. fold w4 in W4.
  rewrite Outer. cbn [fst snd]. rewrite D4, W4.
  split; [reflexivity | ].
  split; [rewrite !lookup_insert_ne by done; exact Hs3 | ].
  split; [rewrite !lookup_insert_ne, lookup_insert_eq by done; reflexivity | ].
  split; [rewrite lookup_insert_ne, lookup_insert_eq by done; reflexivity | ].
  split; [rewrite lookup_insert_eq; reflexivity | reflexivity].
Qed.

(** What a finished instance holds and what the queries return on it. *)
Lemma consistent_finished self s a b :
  consistent (instance_dict s self) ->
  instance_dict s self !! "start" = Some (VFloat a) ->
  instance_dict s self !! "end" = Some (VFloat b) ->
  instance_dict s self !! "elapsed_s" = Some (VFloat (b - a))
  ∧ instance_dict s self !! "elapsed_ms" = Some (VFloat ((b - a) * 1000))
  ∧ elapsed self s = (Ok (VFloat (b - a)), s)
  ∧ elapsed_ms self s = (Ok (VFloat ((b - a) * 1000)), s).
Proof.
  intros [_ Hc] Hs He. rewrite Hs, He in Hc. destruct Hc as [Hes Hems].
  split; [exact Hes | split; [exact Hems | split] ].
  - unfold elapsed. clear Hes Hems. run_method. done.
  - unfold elapsed_ms. clear Hes Hems. run_method. done.
Qed.

(** The two cached values are set together, and the second is the first
    times 1000. *)
Lemma consistent_cache (d : gmap string (@value W)) :
  consistent d ->
  match d !! "elapsed_s", d !! "elapsed_ms" with
  | None, None => True
  | Some (VFloat e), Some (VFloat ms) => ms = (e * 1000)%float
  | _, _ => False
  end.
Proof.
  intros [_ Hc].
  destruct (d !! "start") as [[ | a | g] | ];
    destruct (d !! "end") as [[ | b | h] | ]; try done.
  - destruct Hc as [[-> ->] | (e & -> & ->)]; done.
  - now destruct Hc as [-> ->].
  - now destruct Hc as [-> ->].
  - now destruct Hc as [-> ->].
Qed.


(** X12: [__exit__] can be called again on a finished instance.  [start]
    is kept, [end] is overwritten with the new reading, and both cached
    values are measured again from the same [start]. *)
Theorem exit_again_measures_from_same_start
    self s (t : callable) a x y z x' y' z' :
  instance_dict s self !! "timer" = Some (VCallable t) ->
  instance_dict s self !! "start" = Some (VFloat a) ->
  let s1 := (__exit__ self x y z s).2 in
  let r2 := (t (world s1)).1 in
  let s2 := (__exit__ self x' y' z' s1).2 in
  (__exit__ self x' y' z' s1).1 = Ok VNone
  ∧ instance_dict s2 self !! "start" = Some (VFloat a)
  ∧ instance_dict s2 self !! "end" = Some (VFloat r2)
  ∧ instance_dict s2 self !! "elapsed_s" = Some (VFloat (r2 - a))
  ∧ instance_dict s2 self !! "elapsed_ms" = Some (VFloat ((r2 - a) * 1000)).
Proof.
  intros Ht Hs s1 r2 s2.
  destruct (exit_dict self s t a x y z Ht Hs) as (_ & D1 & _).
  fold s1 in D1.
  assert (Ht1 : instance_dict s1 self !! "timer" = Some (VCallable t))
    by (rewrite D1; now rewrite !lookup_insert_ne by done).
  assert (Hs1 : instance_dict s1 self !! "start" = Some (VFloat a))
    by (rewrite D1; now rewrite !lookup_insert_ne by done).
  destruct (exit_dict self s1 t a x' y' z' Ht1 Hs1) as (E2 & D2 & _).
  fold s2 r2 in D2.
  split; [exact E2 | ]. rewrite D2.
  split; [rewrite !lookup_insert_ne by done; exact Hs1 | ].
  split; [rewrite !lookup_insert_ne, lookup_insert_eq by done; reflexivity | ].
  split; [rewrite lookup_insert_ne, lookup_insert_eq by done; reflexivity | ].
  rewrite lookup_insert_eq; reflexivity.
Qed.

End TimerFacts.

(** Why the readings are taken finite: two equal infinities are in order,
    and their difference is a NaN. *)
Remark infinite_readings_give_nan :
  (infinity <=? infinity)%float = true
  ∧ (0 <=? infinity - infinity)%float = false.
Proof. split; reflexivity. Qed.

(** * Construction *)

Section Construction.

Context {W : Type} (default_timer : @callable W).

(** Whatever the argument, the new instance holds [default_timer] under
    [timer], and nothing else. *)
Lemma Timer_binds_default (arg : option (@value W)) (s : @state W) :
  Timer default_timer arg s =
    (Ok (fresh (dom (heap s))),
     State (<[fresh (dom (heap s)) := {["timer" := VCallable default_timer]}]> (heap s))
           (world s)).
Proof.
  unfold Timer, __init__, setattr, instance_dict, mbind, M_bind, mret, M_ret.
  cbn. rewrite lookup_total_insert_eq, insert_insert_eq. now rewrite insert_empty.
Qed.

(** The address of the new instance was not in use. *)
Lemma Timer_fresh (s : @state W) : heap s !! fresh (dom (heap s)) = None.
Proof. apply not_elem_of_dom, is_fresh. Qed.

(** An instance made by the constructor keeps [default_timer] through
    every history; it has no [start] until it is entered, and no cached
    [elapsed_ms] until it is exited. *)
Lemma history_timer_bound arg (s : @state W) os :
  let self := fresh (dom (heap s)) in
  instance_dict (run_ops self os (Timer default_timer arg s).2) self !! "timer"
    = Some (VCallable default_timer).
Proof.
  intros self. rewrite run_ops_keeps_timer, Timer_binds_default.
  unfold instance_dict. cbn. now rewrite lookup_total_insert_eq.
Qed.

Lemma history_never_entered arg (s : @state W) os :
  let self := fresh (dom (heap s)) in
  forallb (λ o, negb (is_enter o)) os = true ->
  instance_dict (run_ops self os (Timer default_timer arg s).2) self !! "start"
    = None.
Proof.
  intros self Hos. apply run_ops_never_entered; [ | exact Hos].
  rewrite Timer_binds_default. unfold instance_dict. cbn.
  now rewrite lookup_total_insert_eq.
Qed.

Lemma history_never_exited arg (s : @state W) os :
  let self := fresh (dom (heap s)) in
  forallb (λ o, negb (is_exit o)) os = true ->
  instance_dict (run_ops self os (Timer default_timer arg s).2) self !! "elapsed_ms"
    = None.
Proof.
  intros self Hos. apply run_ops_never_exited; [ | exact Hos].
  rewrite Timer_binds_default. unfold instance_dict. cbn.
  now rewrite lookup_total_insert_eq.
Qed.

End Construction.

(** * The life of an instance made by the constructor *)

Section Lifetime.

Context {W : Type} (default_timer : @callable W).

Lemma Timer_consistent (arg : option (@value W)) (s : @state W) :
  consistent
    (instance_dict (Timer default_timer arg s).2 (fresh (dom (heap s)))).
Proof.
  rewrite Timer_binds_default. unfold instance_dict. cbn [snd heap].
  rewrite lookup_total_insert_eq. split.
  - exists default_timer. apply lookup_singleton_eq.
  - now rewrite !lookup_singleton_ne by done.
Qed.

Lemma not_entered (os : list (@op W)) :
  existsb is_enter os = false ->
  forallb (λ o, negb (is_enter o)) os = true.
Proof.
  induction os as [ | o os IH]; [done | ]. cbn.
  intros H. apply orb_false_elim in H as [-> H]. now rewrite IH.
Qed.

(** X7: on an instance made by the constructor, after any history,
    calling it returns a float and [__enter__] returns the instance; the
    two queries return floats and [__exit__] returns [None] when
    [__enter__] was called at some point of the history, and all three
    raise [AttributeError] when it never was. *)
Theorem made_instance_outcomes (arg : option (@value W)) (s : @state W) os x y z :
  let self := fresh (dom (heap s)) in
  let s' := run_ops self os (Timer default_timer arg s).2 in
  (∃ r, (__call__ self s').1 = Ok (VFloat r))
  ∧ (__enter__ self s').1 = Ok self
  ∧ if existsb is_enter os
    then (∃ r, (elapsed self s').1 = Ok (VFloat r))
         ∧ (∃ r, (elapsed_ms self s').1 = Ok (VFloat r))
         ∧ (__exit__ self x y z s').1 = Ok VNone
    else (∃ n, (elapsed self s').1 = Raise (AttributeError n))
         ∧ (∃ n, (elapsed_ms self s').1 = Raise (AttributeError n))
         ∧ (__exit__ self x y z s').1 = Raise (AttributeError "start").
Proof.
  intros self s'.
  assert (Hc : consistent (instance_dict s' self))
    by apply run_ops_consistent, Timer_consistent.
  destruct (consistent_outcomes self s' x y z Hc) as (Hcall & Henter & Hrest).
  split; [exact Hcall | split; [exact Henter | ] ].
  destruct (existsb is_enter os) eqn:Hos.
  - destruct (run_ops_entered self os _ (Timer_consistent arg s) Hos) as [v Hv].
    fold self s' in Hv. now rewrite Hv in Hrest.
  - pose proof (history_never_entered default_timer arg s os (not_entered _ Hos))
      as Hn.
    fold self s' in Hn. cbv zeta in Hn. now rewrite Hn in Hrest.
Qed.

(** X8: on an instance made by the constructor, after any history that
    leaves [start] set and a reading in [end], the cached [elapsed_s] is
    [end - start], the cached [elapsed_ms] is that times 1000, and the
    queries return these two values and read no clock. *)
Theorem finished_cache_agrees (arg : option (@value W)) (s : @state W) os a b :
  let self := fresh (dom (heap s)) in
  let s' := run_ops self os (Timer default_timer arg s).2 in
  instance_dict s' self !! "start" = Some (VFloat a) ->
  instance_dict s' self !! "end" = Some (VFloat b) ->
  instance_dict s' self !! "elapsed_s" = Some (VFloat (b - a))
  ∧ instance_dict s' self !! "elapsed_ms" = Some (VFloat ((b - a) * 1000))
  ∧ elapsed self s' = (Ok (VFloat (b - a)), s')
  ∧ elapsed_ms self s' = (Ok (VFloat ((b - a) * 1000)), s').
Proof.
  intros self s' Hs He. apply consistent_finished; trivial.
  apply run_ops_consistent, Timer_consistent.
Qed.

(** X9: on an instance made by the constructor, after any history,
    [elapsed_s] and [elapsed_ms] are both unset or both floats, and then
    [elapsed_ms] is [elapsed_s] times 1000: also inside a later scope,
    where both are left over from the scope before. *)
Theorem cached_ms_is_cached_s_times_1000 (arg : option (@value W)) (s : @state W) os :
  let self := fresh (dom (heap s)) in
  let s' := run_ops self os (Timer default_timer arg s).2 in
  match instance_dict s' self !! "elapsed_s", instance_dict s' self !! "elapsed_ms" with
  | None, None => True
  | Some (VFloat e), Some (VFloat ms) => ms = (e * 1000)%float
  | _, _ => False
  end.
Proof.
  intros self s'. apply consistent_cache, run_ops_consistent, Timer_consistent.
Qed.


(** X11: making an instance and calling its methods leaves every instance
    that was there before as it was; the new instance is none of them. *)
Theorem other_instances_untouched (arg : option (@value W)) (s : @state W) os l d :
  heap s !! l = Some d ->
  let self := fresh (dom (heap s)) in
  l ≠ self
  ∧ heap (run_ops self os (Timer default_timer arg s).2) !! l = Some d.
Proof.
  intros Hl self.
  assert (Hne : l ≠ self).
  { intros ->. pose proof (Timer_fresh s) as Hf. fold self in Hf. congruence. }
  split; [exact Hne | ].
  set (I := λ s0 : @state W, heap s0 !! l = Some d).
  assert (Hw : ∀ name v, writable I self name v).
  { intros name v s0 H0. unfold I, setattr. cbn [snd heap].
    now rewrite lookup_insert_ne by done. }
  apply (run_ops_invariant I self os); auto.
  - now intros h w w'.
  - unfold I. rewrite Timer_binds_default. cbn [snd heap].
    now rewrite lookup_insert_ne by done.
Qed.

End Lifetime.

(** * The constructor and the stub scenario, run *)

(** C1: [Timer(stub)] binds the platform clock: the stub is not stored,
    and a call of the instance returns the reading of the platform clock
    and leaves the stub unread. *)
Theorem constructor_ignores_supplied_source :
  Timer Demo.default_timer (Some (VCallable Demo.stub)) Demo.boot =
    (Ok Demo.self,
     State {[Demo.self := {["timer" := VCallable Demo.default_timer]}]}
           (Demo.Clocks 0 0))
  ∧ __call__ Demo.self Demo.created =
      (Ok (VFloat 1341568310.0), State (heap Demo.created) (Demo.Clocks 1 0)).
Proof. split; reflexivity. Qed.

(** C2: in the scenario of the stub yielding 100.0 then 100.5, entering
    and leaving the scope of [Timer(stub)] stores the readings of the
    platform clock and their difference; the stub is never read. *)
Theorem stub_scenario_runs_on_platform_clock :
  with_ Demo.self (λ _, mret ()) Demo.created = (Ok (), Demo.exited)
  ∧ instance_dict Demo.exited Demo.self !! "start" = Some (VFloat 1341568310.0)
  ∧ instance_dict Demo.exited Demo.self !! "end" = Some (VFloat 1341568310.125)
  ∧ instance_dict Demo.exited Demo.self !! "elapsed_s" = Some (VFloat 0.125)
  ∧ instance_dict Demo.exited Demo.self !! "elapsed_ms" = Some (VFloat 125)
  ∧ world Demo.exited = Demo.Clocks 2 0.
Proof. repeat split; reflexivity. Qed.

(** With the stub assigned to [timer] after construction, the scenario
    gives the values it expects. *)
Lemma stub_scenario_when_assigned :
  instance_dict Demo.rebound_exited Demo.self !! "start" = Some (VFloat 100.0)
  ∧ instance_dict Demo.rebound_exited Demo.self !! "end" = Some (VFloat 100.5)
  ∧ instance_dict Demo.rebound_exited Demo.self !! "elapsed_s" = Some (VFloat 0.5)
  ∧ instance_dict Demo.rebound_exited Demo.self !! "elapsed_ms" = Some (VFloat 500.0)
  ∧ world Demo.rebound_exited = Demo.Clocks 0 2.
Proof. repeat split; reflexivity. Qed.

(** * The theorems at work on the scripted clocks *)

(** Re-entering the finished instance: the third reading of the clock
    becomes [start], [end] is [None] again, the cached values stay. *)
Lemma enter_overwrites_start_witness :
  instance_dict Demo.exited Demo.self !! "start" = Some (VFloat 1341568310.0)
  ∧ __enter__ Demo.self Demo.exited =
      (Ok Demo.self,
       State {[Demo.self :=
                 <["end" := VNone]>
                   (<["start" := VFloat 1341568310.125]>
                      (instance_dict Demo.exited Demo.self))]}
             (Demo.Clocks 3 0)).
Proof.
  split; [reflexivity | ].
  exact (enter_overwrites_start_and_returns_self
           Demo.self Demo.exited Demo.default_timer eq_refl).
Defined.

Lemma call_returns_reading_witness :
  __call__ Demo.self Demo.entered =
    (Ok (VFloat 1341568310.125), State (heap Demo.entered) (Demo.Clocks 2 0)).
Proof.
  exact (call_returns_reading_and_keeps_heap
           Demo.self Demo.entered Demo.default_timer eq_refl).
Defined.

(** Live inside the scope, fixed after it. *)
Lemma elapsed_live_then_fixed_witness :
  (elapsed Demo.self Demo.entered =
     (Ok (VFloat 0.125), State (heap Demo.entered) (Demo.Clocks 2 0))
   ∧ elapsed_ms Demo.self Demo.entered =
     (Ok (VFloat 125), State (heap Demo.entered) (Demo.Clocks 2 0)))
  ∧ (elapsed Demo.self Demo.exited = (Ok (VFloat 0.125), Demo.exited)
     ∧ elapsed_ms Demo.self Demo.exited = (Ok (VFloat 125), Demo.exited)).
Proof.
  split.
  - exact (proj1 (elapsed_live_then_fixed Demo.self Demo.entered 1341568310.0 eq_refl)
             Demo.default_timer eq_refl eq_refl).
  - exact (proj2 (elapsed_live_then_fixed Demo.self Demo.exited 1341568310.0 eq_refl)
             1341568310.125%float eq_refl).
Defined.

Lemma elapsed_before_entry_witness :
  ∃ name s',
    elapsed Demo.self Demo.created = (Raise (AttributeError name), s')
    ∧ elapsed_ms Demo.self Demo.created = (Raise (AttributeError name), s')
    ∧ name = "end".
Proof.
  exact (elapsed_before_entry_raises
           Demo.self Demo.created Demo.default_timer eq_refl eq_refl).
Defined.

Lemma exit_before_entry_witness :
  __exit__ Demo.self None None None Demo.created =
    (Raise (AttributeError "start"),
     State {[Demo.self :=
               <["end" := VFloat 1341568310.0]>
                 {["timer" := VCallable Demo.default_timer]}]}
           (Demo.Clocks 1 0)).
Proof.
  exact (exit_before_entry_raises_after_setting_end
           Demo.self Demo.created Demo.default_timer None None None
           eq_refl eq_refl).
Defined.

(** A block that raises: the exception comes out of the [with] statement,
    and the instance is as after a normal exit. *)
Lemma exit_never_suppresses_witness :
  with_ Demo.self Demo.failing_block Demo.created =
    (Raise (Exception "boom"), Demo.exited).
Proof.
  exact (proj2 (proj2 (exit_ignores_exception_and_never_suppresses
                         Demo.self Demo.created Demo.default_timer eq_refl))
           Demo.failing_block (Raise (Exception "boom")) Demo.entered
           eq_refl eq_refl).
Defined.

Lemma elapsed_ms_is_number_witness :
  (__exit__ Demo.self None None None Demo.entered).1 = Ok VNone
  ∧ getattr Demo.self "elapsed_ms" Demo.exited =
      (Ok (Data (VFloat 125)), Demo.exited)
  ∧ call (Data (VFloat 125)) Demo.exited = (Raise TypeError, Demo.exited)
  ∧ (∀ os, ∃ n,
        getattr Demo.self "elapsed_ms" (run_ops Demo.self os Demo.exited) =
          (Ok (Data (VFloat n)), run_ops Demo.self os Demo.exited)
        ∧ call (Data (VFloat n)) (run_ops Demo.self os Demo.exited) =
          (Raise TypeError, run_ops Demo.self os Demo.exited))
  ∧ (instance_dict Demo.entered Demo.self !! "elapsed_ms" = None ->
     getattr Demo.self "elapsed_ms" Demo.entered =
       (Ok (Bound m_elapsed_ms Demo.self), Demo.entered)).
Proof.
  exact (elapsed_ms_is_number_after_exit
           Demo.self Demo.entered Demo.default_timer 1341568310.0 None None None
           eq_refl eq_refl).
Defined.

Lemma elapsed_nonneg_witness :
  instance_dict Demo.exited Demo.self !! "start" = Some (VFloat 1341568310.0)
  ∧ instance_dict Demo.exited Demo.self !! "end" = Some (VFloat 1341568310.125)
  ∧ instance_dict Demo.exited Demo.self !! "elapsed_s" = Some (VFloat 0.125)
  ∧ instance_dict Demo.exited Demo.self !! "elapsed_ms" = Some (VFloat 125)
  ∧ (0 <=? 0.125)%float = true
  ∧ (125 =? 0.125 * 1000)%float = true.
Proof.
  exact (elapsed_nonneg_and_ms_exact
           Demo.self Demo.created Demo.default_timer Demo.entered None None None
           eq_refl eq_refl eq_refl eq_refl eq_refl).
Defined.

(** * The further properties at work on the longer script *)

(** Inside the scope of [a]: every method advances the clock by one
    reading. *)
Lemma methods_read_the_clock_witness :
  world (__call__ Ticks.first Ticks.one_running).2 = 2
  ∧ world (__enter__ Ticks.first Ticks.one_running).2 = 2
  ∧ world (__exit__ Ticks.first None None None Ticks.one_running).2 = 2
  ∧ world (elapsed Ticks.first Ticks.one_running).2 = 2
  ∧ world (elapsed_ms Ticks.first Ticks.one_running).2 = 2.
Proof.
  exact (methods_read_the_clock_at_most_once
           Ticks.first Ticks.one_running Ticks.clock None None None eq_refl).
Defined.

(** A scope from 10.0 to 11.5, entered again at 13.0 and queried at 17.0:
    the cached values still say 1.5 s, the query says 4.0 s. *)
Lemma reentry_keeps_stale_cache_witness :
  let s2 := run_ops Ticks.first
              [op_exit None None None; op_enter] Ticks.one_running in
  instance_dict s2 Ticks.first !! "start" = Some (VFloat 13.0)
  ∧ instance_dict s2 Ticks.first !! "end" = Some VNone
  ∧ instance_dict s2 Ticks.first !! "elapsed_s" = Some (VFloat 1.5)
  ∧ instance_dict s2 Ticks.first !! "elapsed_ms" = Some (VFloat 1500)
  ∧ (elapsed Ticks.first s2).1 = Ok (VFloat 4.0).
Proof.
  exact (reentry_keeps_stale_cache
           Ticks.first Ticks.one_running Ticks.clock 10.0 None None None
           eq_refl eq_refl).
Defined.

Lemma live_elapsed_nonneg_witness :
  ∃ e ms,
    (elapsed Ticks.first Ticks.one_running).1 = Ok (VFloat e)
    ∧ (elapsed_ms Ticks.first Ticks.one_running).1 = Ok (VFloat ms)
    ∧ (0 <=? e)%float = true
    ∧ (0 <=? ms)%float = true.
Proof.
  exact (live_elapsed_nonneg
           Ticks.first Ticks.one_running Ticks.clock 10.0
           eq_refl eq_refl eq_refl eq_refl eq_refl eq_refl).
Defined.

(** Outer entry at 10.0, inner entry at 11.5, one reading skipped, inner
    exit at 17.0, outer exit at 20.0: the instance reports 20.0 - 11.5. *)
Lemma nested_scopes_witness :
  let made := (Timer Ticks.clock None (State ∅ 0)).2 in
  let nested := with_ Ticks.first (λ v, with_ v (idle S)) made in
  nested.1 = Ok ()
  ∧ instance_dict nested.2 Ticks.first !! "start" = Some (VFloat 11.5)
  ∧ instance_dict nested.2 Ticks.first !! "end" = Some (VFloat 20.0)
  ∧ instance_dict nested.2 Ticks.first !! "elapsed_s" = Some (VFloat 8.5)
  ∧ instance_dict nested.2 Ticks.first !! "elapsed_ms" = Some (VFloat 8500)
  ∧ world nested.2 = 5.
Proof.
  exact (nested_scopes_measure_from_inner_entry
           Ticks.first (Timer Ticks.clock None (State ∅ 0)).2 Ticks.clock S
           eq_refl).
Defined.

Lemma finished_cache_agrees_witness :
  let s' := run_ops Ticks.first Ticks.scope (Timer Ticks.clock None (State ∅ 0)).2 in
  instance_dict s' Ticks.first !! "elapsed_s" = Some (VFloat 1.5)
  ∧ instance_dict s' Ticks.first !! "elapsed_ms" = Some (VFloat 1500)
  ∧ elapsed Ticks.first s' = (Ok (VFloat 1.5), s')
  ∧ elapsed_ms Ticks.first s' = (Ok (VFloat 1500), s').
Proof.
  exact (finished_cache_agrees
           Ticks.clock None (State ∅ 0) Ticks.scope 10.0 11.5 eq_refl eq_refl).
Defined.


(** A whole scope of [b] leaves the running [a] as it was. *)
Lemma other_instances_untouched_witness :
  Ticks.first ≠ Ticks.second
  ∧ heap (run_ops Ticks.second Ticks.scope Ticks.two_made) !! Ticks.first
    = Some Ticks.first_dict.
Proof.
  exact (other_instances_untouched
           Ticks.clock None Ticks.one_running Ticks.scope
           Ticks.first Ticks.first_dict eq_refl).
Defined.

(** A scope from 10.0 to 11.5, and [__exit__] once more at 13.0. *)
Lemma exit_again_witness :
  let s1 := (__exit__ Ticks.first None None None Ticks.one_running).2 in
  let s2 := (__exit__ Ticks.first None None None s1).2 in
  (__exit__ Ticks.first None None None s1).1 = Ok VNone
  ∧ instance_dict s2 Ticks.first !! "start" = Some (VFloat 10.0)
  ∧ instance_dict s2 Ticks.first !! "end" = Some (VFloat 13.0)
  ∧ instance_dict s2 Ticks.first !! "elapsed_s" = Some (VFloat 3.0)
  ∧ instance_dict s2 Ticks.first !! "elapsed_ms" = Some (VFloat 3000).
Proof.
  exact (exit_again_measures_from_same_start
           Ticks.first Ticks.one_running Ticks.clock 10.0
           None None None None None None eq_refl eq_refl).
Defined.
